(** * Task printer: a shallow embedding of [main.py] and [printing.py]

    The web layer ([main.py]) validates a task and hands it to the printer
    layer ([printing.py]), which formats four lines and sends them to a
    USB receipt printer through the python-escpos driver.

    Conventions of the embedding.
    - A Python [str] is a Rocq [string] whose characters are the code
      points 0..255; the character classes below are CPython's, restricted
      to that range.
    - Python integers are [Z].
    - The process environment [os.environ] is a [gmap string string].
    - Code that can raise runs in the monad [M]: a state transformer over
      the process state [World] that returns either a value or the raised
      exception.  State changes made before a [raise] persist, as in Python.
    - Everything outside the repository that the code calls and whose
      outcome the code cannot determine (the driver and the device behind
      it, the date-time parsers of the standard library and of the request
      framework) is a field of the record [Runtime]. *)

From Stdlib Require Import ZArith Ascii String List Bool Lia DecimalString.
From stdpp Require Import base option gmap strings.

Local Open Scope Z_scope.

(** ** Python strings *)

Module Py.

Definition code (c : ascii) : Z := Z.of_N (N_of_ascii c).

Definition in_range (lo hi : Z) (c : ascii) : bool :=
  (lo <=? code c) && (code c <=? hi).

(** [str.isspace] on one character (the Unicode white-space property):
    U+0009..U+000D, U+001C..U+0020, U+0085 and U+00A0. *)
Definition isspace (c : ascii) : bool :=
  in_range 9 13 c || in_range 28 32 c || (code c =? 133) || (code c =? 160).

(** [Py_ISSPACE], the C-locale class the integer parser skips. *)
Definition c_isspace (c : ascii) : bool :=
  in_range 9 13 c || (code c =? 32).

Fixpoint lstrip (s : string) : string :=
  match s with
  | EmptyString => EmptyString
  | String c s' => if isspace c then lstrip s' else s
  end.

Fixpoint rstrip (s : string) : string :=
  match s with
  | EmptyString => EmptyString
  | String c s' =>
      match rstrip s' with
      | EmptyString => if isspace c then EmptyString else String c EmptyString
      | r => String c r
      end
  end.

(** [s.strip()] *)
Definition strip (s : string) : string := rstrip (lstrip s).

(** Truth value of a [str]: only the empty string is false. *)
Definition truthy (s : string) : bool :=
  match s with EmptyString => false | _ => true end.

(** ** Decimal and hexadecimal rendering of integers *)

(** [str(n)] for an integer. *)
Definition dec (n : Z) : string := NilZero.string_of_int (Z.to_int n).

Fixpoint zeros (n : nat) : string :=
  match n with O => EmptyString | S k => String "0" (zeros k) end.

(** C's [%0wd] for a non-negative [n]: at least [w] digits, zero filled. *)
Definition zpad (w : nat) (n : Z) : string :=
  let s := dec n in (zeros (w - String.length s) +:+ s).

Definition hex_digit (d : Z) : ascii :=
  ascii_of_N (Z.to_N (if d <? 10 then 48 + d else 87 + d)).

(** ** [repr] of a [str] *)

Definition dquote : ascii := ascii_of_N 34.
Definition squote : ascii := ascii_of_N 39.
Definition backslash : ascii := ascii_of_N 92.

(** The line feed, Python's "\n". *)
Definition nl : string := String (ascii_of_N 10) EmptyString.

Fixpoint contains (q : ascii) (s : string) : bool :=
  match s with
  | EmptyString => false
  | String c s' => Ascii.eqb c q || contains q s'
  end.

(** [str.isprintable] on one character. *)
Definition isprintable (c : ascii) : bool :=
  in_range 32 126 c || in_range 161 172 c || in_range 174 255 c.

Definition repr_char (quote c : ascii) : string :=
  if Ascii.eqb c quote || Ascii.eqb c backslash
  then String backslash (String c EmptyString)
  else if code c =? 9 then "\t"
  else if code c =? 10 then "\n"
  else if code c =? 13 then "\r"
  else if isprintable c then String c EmptyString
  else String backslash
         (String "x" (String (hex_digit (code c / 16))
                        (String (hex_digit (code c mod 16)) EmptyString))).

Fixpoint repr_body (quote : ascii) (s : string) : string :=
  match s with
  | EmptyString => EmptyString
  | String c s' => repr_char quote c +:+ repr_body quote s'
  end.

(** [repr(s)]: single quotes, unless the text has a single quote and no
    double quote. *)
Definition repr (s : string) : string :=
  let quote : ascii :=
    if contains squote s && negb (contains dquote s) then dquote else squote in
  String quote (repr_body quote s +:+ String quote EmptyString).

Fixpoint take (n : nat) (s : string) : string :=
  match n, s with
  | S k, String c s' => String c (take k s')
  | _, _ => EmptyString
  end.

(** ** [int(s, base)] on a [str] *)

(** [_PyLong_DigitValue]: 0-9, then a-z and A-Z as 10..35. *)
Definition digit_value (c : ascii) : option Z :=
  if in_range 48 57 c then Some (code c - 48)
  else if in_range 97 122 c then Some (code c - 87)
  else if in_range 65 90 c then Some (code c - 55)
  else None.

(** White space around an integer literal: [Py_ISSPACE], after the
    non-ASCII spaces U+0085 and U+00A0 have been mapped to a blank. *)
Definition int_space (c : ascii) : bool :=
  c_isspace c || (code c =? 133) || (code c =? 160).

Fixpoint skip_space (s : string) : string :=
  match s with
  | EmptyString => EmptyString
  | String c s' => if int_space c then skip_space s' else s
  end.

Fixpoint all_space (s : string) : bool :=
  match s with
  | EmptyString => true
  | String c s' => int_space c && all_space s'
  end.

(** The digit loop: digits below [base] and single underscores between
    them.  [prev_us] says that the previous character was an underscore,
    [n] counts the digits read, [acc] is their value.  The result is the
    value and the unread rest; [None] is a malformed literal. *)
Fixpoint scan_digits (base : Z) (prev_us : bool) (n : nat) (acc : Z)
    (s : string) : option (Z * string) :=
  let stop := if prev_us then None
              else match n with O => None | _ => Some (acc, s) end in
  match s with
  | EmptyString => stop
  | String c s' =>
      if Ascii.eqb c "_" then
        if prev_us then None else scan_digits base true n acc s'
      else
        match digit_value c with
        | Some d =>
            if d <? base then scan_digits base false (S n) (acc * base + d) s'
            else stop
        | None => stop
        end
  end.

(** The base prefix ([0x], [0o], [0b], either case), which may be followed
    by one underscore. *)
Definition skip_prefix (base : Z) (s : string) : string :=
  match s with
  | String "0" (String p r) =>
      let hit :=
        ((base =? 16) && (Ascii.eqb p "x" || Ascii.eqb p "X")) ||
        ((base =? 8) && (Ascii.eqb p "o" || Ascii.eqb p "O")) ||
        ((base =? 2) && (Ascii.eqb p "b" || Ascii.eqb p "B")) in
      if hit then match r with String "_" r' => r' | _ => r end else s
  | _ => s
  end.

(** The value of [int(s, base)] for [2 <= base <= 36], or [None] where
    CPython raises "invalid literal". *)
Definition int_literal (base : Z) (s : string) : option Z :=
  let s1 := skip_space s in
  let '(sign, s2) :=
    match s1 with
    | String "+" r => (1, r)
    | String "-" r => (-1, r)
    | _ => (1, s1)
    end in
  let s3 := skip_prefix base s2 in
  match s3 with
  | String "_" _ => None
  | _ =>
      match scan_digits base false O 0 s3 with
      | Some (v, rest) => if all_space rest then Some (sign * v) else None
      | None => None
      end
  end.

End Py.


(** ** Exceptions and results *)

(** An instance of a subclass of [Exception]: its class name and the text
    [str(exc)] gives.  Signals that are not [Exception]s (a keyboard
    interrupt, interpreter exit) are not modelled. *)
Record exn := Exn { exn_class : string; exn_str : string }.

Definition ValueError (msg : string) : exn := Exn "ValueError" msg.
Definition TypeError (msg : string) : exn := Exn "TypeError" msg.
Definition IndexError (msg : string) : exn := Exn "IndexError" msg.
Definition AttributeError (msg : string) : exn := Exn "AttributeError" msg.

Definition is_ValueError (e : exn) : bool := String.eqb (exn_class e) "ValueError".

(** [except Exception]: every modelled exception. *)
Definition is_Exception (e : exn) : bool := true.

Inductive result (A : Type) : Type :=
| Ok (a : A)
| Raise (e : exn).
Arguments Ok {A} a.
Arguments Raise {A} e.

(** The [ValueError] of a failed [int()] conversion; CPython prints the
    first 200 characters of the argument's [repr]. *)
Definition invalid_literal (base : Z) (s : string) : exn :=
  ValueError ("invalid literal for int() with base " +:+ Py.dec base +:+ ": "
              +:+ Py.take 200 (Py.repr s)).

(** [int(s, base)] for a [str] [s]. *)
Definition int_str (base : Z) (s : string) : result Z :=
  match Py.int_literal base s with
  | Some v => Ok v
  | None => Raise (invalid_literal base s)
  end.

(** ** Date-times *)

(** The fields of a [datetime.datetime] that formatting reads (the time
    zone is left out: no directive used here prints it). *)
Record datetime := Datetime {
  year : Z; month : Z; day : Z;
  hour : Z; minute : Z; second : Z; microsecond : Z
}.

Definition is_leap (y : Z) : bool :=
  ((y mod 4 =? 0) && negb (y mod 100 =? 0)) || (y mod 400 =? 0).

Definition days_in_month (y m : Z) : Z :=
  if m =? 2 then (if is_leap y then 29 else 28)
  else if (m =? 4) || (m =? 6) || (m =? 9) || (m =? 11) then 30
  else 31.


(** One [strftime] directive.  The directives that print a field of the
    record, as documented for Python: the year with century in four
    digits, the others in two, zero filled.  Any other directive belongs to
    the platform and is left as it is written. *)
Definition directive (d : datetime) (c : ascii) : string :=
  if Ascii.eqb c "Y" then Py.zpad 4 (year d)
  else if Ascii.eqb c "m" then Py.zpad 2 (month d)
  else if Ascii.eqb c "d" then Py.zpad 2 (day d)
  else if Ascii.eqb c "H" then Py.zpad 2 (hour d)
  else if Ascii.eqb c "M" then Py.zpad 2 (minute d)
  else if Ascii.eqb c "S" then Py.zpad 2 (second d)
  else if Ascii.eqb c "%" then "%"
  else String "%" (String c EmptyString).

(** [d.strftime(fmt)], which is also [format(d, fmt)] and the f-string
    field [{d:fmt}] for a non-empty [fmt]. *)
Fixpoint strftime (d : datetime) (fmt : string) : string :=
  match fmt with
  | EmptyString => EmptyString
  | String "%" (String c rest) => directive d c +:+ strftime d rest
  | String c rest => String c (strftime d rest)
  end.

(** ** The driver and the process state *)

(** The handle [escpos.printer.Usb] with its constructor arguments. *)
Record Usb := mkUsb {
  usb_vid : Z; usb_pid : Z; usb_interface : Z; usb_profile : option string
}.

(** The calls the printer layer makes into python-escpos: the constructor
    and three methods of the handle.  Keyword arguments are kept as
    written. *)
Inductive call :=
| UsbNew (vid pid interface : Z) (profile : option string)
| DevSet (kwargs : list (string * string))
| DevTextln (txt : string)
| DevCut.

(** A call that was made, with the exception it raised, if any. *)
Record event := Ev { ev_call : call; ev_raised : option exn }.

(** What [textln] sends for its argument: the text and a line feed. *)
Definition textln_output (txt : string) : string := txt +:+ Py.nl.

(** The arguments of one entry into [print_task]. *)
Record task_args := TaskArgs {
  arg_title : string; arg_description : string;
  arg_created : datetime; arg_due : datetime
}.

(** Behaviour the repository does not determine.
    - [driver hist c]: the exception the driver call [c] raises after the
      calls [hist], or [None] when it returns.
    - [fromisoformat s]: the value of [datetime.fromisoformat(s)], or
      [None] when it raises [ValueError].
    - [parse_datetime s]: the date-time the request framework reads from a
      JSON string for a [datetime] field, or [None] when it rejects it. *)
Record Runtime := {
  driver : list event -> call -> option exn;
  fromisoformat : string -> option datetime;
  parse_datetime : string -> option datetime
}.

(** The process state: the environment, the module global [_printer] of
    [printing.py], the driver calls made so far, and a record of every
    entry into [print_task] (what a test double in its place would see). *)
Record World := mkWorld {
  environ : gmap string string;
  _printer : option Usb;
  trace : list event;
  print_task_calls : list task_args
}.

Definition with_printer (p : option Usb) (w : World) : World :=
  mkWorld (environ w) p (trace w) (print_task_calls w).

Definition with_events (evs : list event) (w : World) : World :=
  mkWorld (environ w) (_printer w) (trace w ++ evs) (print_task_calls w).

Definition with_event (e : event) (w : World) : World := with_events [e] w.

Definition with_entry (a : task_args) (w : World) : World :=
  mkWorld (environ w) (_printer w) (trace w) (print_task_calls w ++ [a]).

(** ** The monad of code that reads and writes the process state and may
    raise *)

Definition M (A : Type) : Type := World -> result A * World.

Definition ret {A} (a : A) : M A := fun w => (Ok a, w).

Definition raise {A} (e : exn) : M A := fun w => (Raise e, w).

Definition bind {A B} (m : M A) (k : A -> M B) : M B :=
  fun w =>
    match m w with
    | (Ok a, w') => k a w'
    | (Raise e, w') => (Raise e, w')
    end.

Declare Scope py_scope.
Delimit Scope py_scope with py.
Notation "x <- m ;; k" := (bind m (fun x => k))
  (at level 100, m at next level, right associativity) : py_scope.
Notation "m ;;; k" := (bind m (fun _ => k))
  (at level 100, right associativity) : py_scope.
Local Open Scope py_scope.

(** A pure computation that may raise. *)
Definition lift {A} (r : result A) : M A := fun w => (r, w).

(** [try: m  except <classes>: ...], with the handler left to the caller:
    an exception of a caught class becomes the value [inl e], any other
    one propagates. *)
Definition attempt {A} (m : M A) (catches : exn -> bool) : M (exn + A) :=
  fun w =>
    match m w with
    | (Ok a, w') => (Ok (inr a), w')
    | (Raise e, w') => if catches e then (Ok (inl e), w') else (Raise e, w')
    end.

(** [for x in xs: body(x)] *)
Fixpoint for_each {A} (xs : list A) (body : A -> M unit) : M unit :=
  match xs with
  | [] => ret tt
  | x :: xs' => body x ;;; for_each xs' body
  end.

Definition environ_get (k : string) : M (option string) :=
  fun w => (Ok (environ w !! k), w).

Definition get_printer : M (option Usb) := fun w => (Ok (_printer w), w).

Definition set_printer (p : Usb) : M unit :=
  fun w => (Ok tt, with_printer (Some p) w).

Section WithRuntime.

Variable rt : Runtime.

(** One call into the driver: it is recorded, then returns or raises as the
    runtime decides. *)
Definition driver_call (c : call) : M unit :=
  fun w =>
    let r := driver rt (trace w) c in
    (match r with None => Ok tt | Some e => Raise e end,
     with_event (Ev c r) w).

(** [Usb(vid, pid, interface, profile=profile)] *)
Definition Usb_new (vid pid interface : Z) (profile : option string) : M Usb :=
  driver_call (UsbNew vid pid interface profile) ;;;
  ret (mkUsb vid pid interface profile).

Definition method_name (c : call) : string :=
  match c with
  | UsbNew _ _ _ _ => "__init__"
  | DevSet _ => "set"
  | DevTextln _ => "textln"
  | DevCut => "cut"
  end.

(** A method call on the global [_printer]. *)
Definition printer_call (c : call) : M unit :=
  p <- get_printer ;;
  match p with
  | Some _ => driver_call c
  | None =>
      raise (AttributeError ("'NoneType' object has no attribute '"
                             +:+ method_name c +:+ "'"))
  end.

(** *** printing.py *)

(** [int(x, 16)] where [x] came from [os.environ.get]: a [str] or [None]. *)
Definition int_base16 (x : option string) : M Z :=
  match x with
  | Some s => lift (int_str 16 s)
  | None => raise (TypeError "int() can't convert non-string with explicit base")
  end.

(** The value of [os.environ.get(k, 0)]: the variable's text, or the
    integer default. *)
Inductive str_or_int := AStr (s : string) | AnInt (n : Z).

Definition environ_get_or (k : string) (default : Z) : M str_or_int :=
  fun w =>
    (Ok (match environ w !! k with Some s => AStr s | None => AnInt default end),
     w).

(** [int(x)] *)
Definition int_ (x : str_or_int) : M Z :=
  match x with
  | AStr s => lift (int_str 10 s)
  | AnInt n => ret n
  end.

(** [not x] for [x] a [str] or [None]. *)
Definition falsy (x : option string) : bool :=
  match x with
  | Some s => negb (Py.truthy s)
  | None => true
  end.

Definition ids_must_be_set : exn :=
  ValueError "PRINTER_VENDOR_ID and PRINTER_PRODUCT_ID must be set".

Definition ids_must_be_hex : exn :=
  ValueError "Vendor and product IDs must be valid hexadecimal strings".

Definition _init_printer : M Usb :=
  vendor_hex <- environ_get "PRINTER_VENDOR_ID" ;;
  product_hex <- environ_get "PRINTER_PRODUCT_ID" ;;
  if falsy vendor_hex || falsy product_hex then raise ids_must_be_set
  else
    ids <- attempt (vid <- int_base16 vendor_hex ;;
                    pid <- int_base16 product_hex ;;
                    ret (vid, pid)) is_ValueError ;;
    match ids with
    | inl exc => raise ids_must_be_hex
    | inr (vid, pid) =>
        raw <- environ_get_or "PRINTER_INTERFACE" 0 ;;
        interface <- int_ raw ;;
        profile <- environ_get "PRINTER_PROFILE" ;;
        Usb_new vid pid interface profile
    end.

Definition ensure_printer_ready : M unit :=
  p <- get_printer ;;
  match p with
  | None => u <- _init_printer ;; set_printer u
  | Some _ => ret tt
  end.

Definition task_lines (title description : string) (created due : datetime)
  : list string :=
  [ title;
    description;
    "Created: " +:+ strftime created "%Y-%m-%d %H:%M";
    "Due:     " +:+ strftime due "%Y-%m-%d %H:%M" ].

(** The entry into [print_task] is recorded first; the rest is the body as
    written. *)
Definition print_task (title description : string) (created due : datetime)
  : M unit :=
  (fun w => (Ok tt, with_entry (TaskArgs title description created due) w)) ;;;
  p <- get_printer ;;
  match p with
  | None => u <- _init_printer ;; set_printer u
  | Some _ => ret tt
  end ;;;
  match task_lines title description created due with
  | [] => raise (IndexError "list index out of range")
  | first :: others =>
      printer_call (DevSet [("align", "left"); ("text_type", "b")]) ;;;
      printer_call (DevTextln (first +:+ Py.nl)) ;;;
      printer_call (DevSet [("text_type", "normal")]) ;;;
      for_each others (fun line => printer_call (DevTextln (line +:+ Py.nl))) ;;;
      printer_call DevCut
  end.

(** *** main.py *)

(** The validated body of a JSON request: the model class [PrintRequest]. *)
Record PrintRequest := mkPrintRequest {
  title : string;
  description : string;
  created_on : datetime;
  due_by : datetime
}.

(** The validator of [title] and [description]. *)
Definition not_empty (v : string) : result string :=
  if negb (Py.truthy (Py.strip v)) then Raise (ValueError "Field cannot be empty")
  else Ok v.

(** A JSON body whose four fields are JSON strings, before validation. *)
Record RawBody := mkRawBody {
  raw_title : string;
  raw_description : string;
  raw_created_on : string;
  raw_due_by : string
}.

(** One entry of a validation error: the field, and the exception when a
    validator of the model raised it ([None]: the framework could not read
    the field's type). *)
Record field_error := FieldError { loc : string; cause : option exn }.

Definition text_errors (name : string) (r : result string) : list field_error :=
  match r with
  | Ok _ => []
  | Raise e => [FieldError name (Some e)]
  end.

Definition datetime_errors (name : string) (r : option datetime)
  : list field_error :=
  match r with
  | Some _ => []
  | None => [FieldError name None]
  end.

(** Construction of [PrintRequest] from a body, as the framework does it:
    every field is checked in declaration order, [title] and [description]
    by [not_empty], the errors are collected, and the object exists only
    when there are none. *)
Definition validate (b : RawBody) : list field_error + PrintRequest :=
  let t := not_empty (raw_title b) in
  let d := not_empty (raw_description b) in
  let c := parse_datetime rt (raw_created_on b) in
  let u := parse_datetime rt (raw_due_by b) in
  match t, d, c, u with
  | Ok t', Ok d', Some c', Some u' => inr (mkPrintRequest t' d' c' u')
  | _, _, _, _ =>
      inl (text_errors "title" t ++ text_errors "description" d ++
           datetime_errors "created_on" c ++ datetime_errors "due_by" u)
  end.

(** The values the confirmation template receives (without the request
    object). *)
Record confirmation := mkConfirmation {
  conf_title : string;
  conf_description : string;
  conf_created_on : datetime;
  conf_due_by : datetime
}.

Inductive Response :=
| HTMLResponse (content : string) (status_code : Z)
| JSONResponse (status_code : Z) (content : gmap string string)
| TemplateResponse (name : string) (context : confirmation)
| ValidationErrorResponse (errors : list field_error).

(** The HTTP status of a response; a rendered template is a 200, the
    framework's validation error a 422. *)
Definition status_of (r : Response) : Z :=
  match r with
  | HTMLResponse _ c => c
  | JSONResponse c _ => c
  | TemplateResponse _ _ => 200
  | ValidationErrorResponse _ => 422
  end.

(** [datetime.fromisoformat(s)] *)
Definition fromisoformat_ (s : string) : M datetime :=
  match fromisoformat rt s with
  | Some d => ret d
  | None => raise (ValueError ("Invalid isoformat string: " +:+ Py.repr s))
  end.

(** The module body of [main.py] calls [ensure_printer_ready()] when it is
    imported; an exception there ends the import. *)
Definition startup : M unit := ensure_printer_ready.

(** [POST /print] *)
Definition print_from_form (title description created_on due_by : string)
  : M Response :=
  parsed <- attempt (created <- fromisoformat_ created_on ;;
                     due <- fromisoformat_ due_by ;;
                     ret (created, due)) is_ValueError ;;
  match parsed with
  | inl _ => ret (HTMLResponse "Invalid date/time format" 400)
  | inr (created, due) =>
      printed <- attempt (print_task title description created due)
                         is_Exception ;;
      match printed with
      | inl exc => ret (HTMLResponse ("Error printing: " +:+ exn_str exc) 500)
      | inr _ =>
          ret (TemplateResponse "confirmation.html"
                 (mkConfirmation title description created due))
      end
  end.

(** The handler of [POST /api/print], called with a validated payload. *)
Definition print_via_api (payload : PrintRequest) : M Response :=
  printed <- attempt (print_task (title payload) (description payload)
                                 (created_on payload) (due_by payload))
                     is_Exception ;;
  match printed with
  | inl exc =>
      ret (JSONResponse 500 {[ "status" := "error"; "detail" := exn_str exc ]})
  | inr _ => ret (JSONResponse 200 {[ "status" := "success" ]})
  end.

(** [POST /api/print] as the framework serves it: the body is validated
    into a [PrintRequest]; the handler runs only when that succeeds. *)
Definition post_api_print (b : RawBody) : M Response :=
  match validate b with
  | inl errs => ret (ValidationErrorResponse errs)
  | inr payload => print_via_api payload
  end.

End WithRuntime.

(** ** Sequences of printer-layer calls *)

Inductive op :=
| DoEnsure
| DoPrint (a : task_args).

(** One call of [ensure_printer_ready] or [print_task] by a caller that
    goes on after an exception, as the request handlers do. *)
Definition run_op (rt : Runtime) (o : op) (w : World) : World :=
  match o with
  | DoEnsure => snd (ensure_printer_ready rt w)
  | DoPrint a =>
      snd (print_task rt (arg_title a) (arg_description a)
                      (arg_created a) (arg_due a) w)
  end.

Definition run_ops (rt : Runtime) (os : list op) (w : World) : World :=
  fold_left (fun w o => run_op rt o w) os w.

(** A constructor call that returned a handle. *)
Definition is_construction (e : event) : bool :=
  match ev_call e, ev_raised e with
  | UsbNew _ _ _ _, None => true
  | _, _ => false
  end.

Definition constructions (t : list event) : nat :=
  length (List.filter is_construction t).

(** The state of a fresh process. *)
Definition fresh (env : gmap string string) : World := mkWorld env None [] [].

(** ** Notions the properties are stated with *)

(** A text that is empty or made of white space only. *)
Fixpoint blank (s : string) : bool :=
  match s with
  | EmptyString => true
  | String c s' => Py.isspace c && blank s'
  end.

(** A printer ID the configuration check refuses: missing, or not a
    hexadecimal literal of [int(_, 16)]. *)
Definition bad_id (x : option string) : bool :=
  match x with
  | None => true
  | Some s => match Py.int_literal 16 s with Some _ => false | None => true end
  end.

(** The configuration errors of [_init_printer]. *)
Definition is_config_error (e : exn) : Prop :=
  e = ids_must_be_set \/ e = ids_must_be_hex.

(** The methods called on the handle, without the constructor call. *)
Definition is_device_call (c : call) : bool :=
  match c with UsbNew _ _ _ _ => false | _ => true end.

Definition device_calls (evs : list event) : list call :=
  List.filter is_device_call (map ev_call evs).

(** The calls of one complete [print_task]. *)
Definition expected_calls (title description : string) (created due : datetime)
  : list call :=
  [ DevSet [("align", "left"); ("text_type", "b")];
    DevTextln (title +:+ Py.nl);
    DevSet [("text_type", "normal")];
    DevTextln (description +:+ Py.nl);
    DevTextln (("Created: " +:+ strftime created "%Y-%m-%d %H:%M") +:+ Py.nl);
    DevTextln (("Due:     " +:+ strftime due "%Y-%m-%d %H:%M") +:+ Py.nl);
    DevCut ].





(** What [textln] makes the device print for a call; [None] for the calls
    that print nothing. *)
Definition printed_text (c : call) : option string :=
  match c with
  | DevTextln txt => Some (textln_output txt)
  | _ => None
  end.

(** The method calls of [print_task], made one after the other on the
    global handle. *)
Definition send_all (rt : Runtime) (cs : list call) : M unit :=
  for_each cs (printer_call rt).

(** The singleton and the record of constructions agree. *)
Definition consistent (w : World) : Prop :=
  constructions (trace w) = match _printer w with Some _ => 1%nat | None => 0%nat end.

(** The [status] and [detail] members of a JSON response. *)
Definition json_member (k : string) (r : Response) : option string :=
  match r with
  | JSONResponse _ c => c !! k
  | _ => None
  end.

(** The reading of the error case of [POST /api/print] that asks for a
    non-empty detail: whenever [print_task] raises [e], the answer is the
    500 error body whose detail is [str(e)] and is not empty. *)
Definition failure_detail_is_nonempty_text (rt : Runtime) (p : PrintRequest)
    (w : World) : Prop :=
  forall e,
    fst (print_task rt (title p) (description p) (created_on p) (due_by p) w)
    = Raise e ->
    exists d,
      fst (print_via_api rt p w)
      = Ok (JSONResponse 500 {[ "status" := "error"; "detail" := d ]}) /\
      d <> EmptyString /\ d = exn_str e.

(** A parser for the [datetime-local] layout "YYYY-MM-DDTHH:MM", used to
    instantiate the runtime in examples. *)
Definition digit_of (c : ascii) : option Z :=
  if Py.in_range 48 57 c then Some (Py.code c - 48) else None.

Fixpoint number (acc : Z) (cs : list ascii) : option Z :=
  match cs with
  | [] => Some acc
  | c :: cs' =>
      match digit_of c with
      | Some d => number (acc * 10 + d) cs'
      | None => None
      end
  end.

Definition parse_local (s : string) : option datetime :=
  match list_ascii_of_string s with
  | [y1; y2; y3; y4; d1; m1; m2; d2; a1; a2; sep; h1; h2; col; n1; n2] =>
      if Ascii.eqb d1 "-" && Ascii.eqb d2 "-" && Ascii.eqb sep "T"
         && Ascii.eqb col ":"
      then
        match number 0 [y1; y2; y3; y4], number 0 [m1; m2], number 0 [a1; a2],
              number 0 [h1; h2], number 0 [n1; n2] with
        | Some y, Some m, Some a, Some h, Some n =>
            if (1 <=? y) && (1 <=? m) && (m <=? 12) && (1 <=? a)
               && (a <=? days_in_month y m) && (h <=? 23) && (n <=? 59)
            then Some (Datetime y m a h n 0 0) else None
        | _, _, _, _, _ => None
        end
      else None
  | _ => None
  end.

(** A driver whose calls all return. *)
Definition quiet_driver (hist : list event) (c : call) : option exn := None.

(** A driver whose device fails on every method call with the given
    exception; the constructor returns. *)
Definition failing_driver (e : exn) (hist : list event) (c : call)
  : option exn :=
  if is_device_call c then Some e else None.

Definition quiet_runtime : Runtime :=
  Build_Runtime quiet_driver parse_local parse_local.

Definition failing_runtime (e : exn) : Runtime :=
  Build_Runtime (failing_driver e) parse_local parse_local.

(** An environment with the two IDs from the documentation. *)
Definition sample_env : gmap string string :=
  {[ "PRINTER_VENDOR_ID" := "0x0416"; "PRINTER_PRODUCT_ID" := "0x5011" ]}.

Definition sample_created : datetime := Datetime 2024 1 5 9 30 0 0.
Definition sample_due : datetime := Datetime 2024 1 5 17 0 0 0.

Definition sample_body : RawBody :=
  mkRawBody "Buy milk" "Two litres" "2024-01-05T09:30" "2024-01-05T17:00".

Definition sample_request : PrintRequest :=
  mkPrintRequest "Buy milk" "Two litres" sample_created sample_due.

(** ** Notions used by the further properties *)

(** The same process state with another environment. *)
Definition with_environ (env : gmap string string) (w : World) : World :=
  mkWorld env (_printer w) (trace w) (print_task_calls w).


(** A driver whose first call fails with [e] and whose later calls
    return: a device that is plugged in after the first attempt. *)
Definition late_driver (e : exn) (hist : list event) (c : call) : option exn :=
  match hist with
  | [] => Some e
  | _ => None
  end.

Definition late_runtime (e : exn) : Runtime :=
  Build_Runtime (late_driver e) parse_local parse_local.

Definition not_found : exn :=
  Exn "USBNotFoundError" "Device not found or cable not plugged in.".

(** * Properties *)

(** ** Sanity checks of the string model *)

Example strip_example : Py.strip "  a b  " = "a b".
Proof. reflexivity. Qed.

Example int_hex_example : Py.int_literal 16 "0x0416" = Some 1046.
Proof. reflexivity. Qed.

Example int_hex_signed_example : Py.int_literal 16 " -0X_1f_f " = Some (-511).
Proof. reflexivity. Qed.

Example int_hex_prefix_only : Py.int_literal 16 "0x" = None.
Proof. reflexivity. Qed.

Example int_decimal_rejects_prefix : Py.int_literal 10 "0x10" = None.
Proof. reflexivity. Qed.

Example invalid_literal_example :
  exn_str (invalid_literal 10 "abc")
  = "invalid literal for int() with base 10: 'abc'".
Proof. reflexivity. Qed.

(** ** Stripping and blank texts *)

Lemma lstrip_blank s : blank s = true -> Py.lstrip s = EmptyString.
Proof.
  induction s as [|c s IH]; cbn; [reflexivity|].
  intros H. apply andb_prop in H as [Hc Hs]. rewrite Hc. auto.
Qed.

Lemma lstrip_not_blank s :
  blank s = false ->
  exists c s', Py.lstrip s = String c s' /\ Py.isspace c = false.
Proof.
  induction s as [|c s IH]; cbn; [discriminate|].
  destruct (Py.isspace c) eqn:Hc; cbn.
  - intros H. apply IH, H.
  - intros _. exists c, s. auto.
Qed.

Lemma rstrip_keeps_head c s :
  Py.isspace c = false -> Py.rstrip (String c s) <> EmptyString.
Proof.
  intros Hc. cbn. destruct (Py.rstrip s); [rewrite Hc|]; discriminate.
Qed.

Lemma strip_blank s : blank s = true <-> Py.strip s = EmptyString.
Proof.
  unfold Py.strip. split.
  - intros H. rewrite (lstrip_blank s H). reflexivity.
  - intros H. destruct (blank s) eqn:Hb; [reflexivity|].
    destruct (lstrip_not_blank s Hb) as (c & s' & E & Hc).
    rewrite E in H. now apply rstrip_keeps_head in H.
Qed.

Lemma strip_not_blank s : Py.strip s <> EmptyString -> blank s = false.
Proof.
  intros H. destruct (blank s) eqn:Hb; [|reflexivity].
  now apply strip_blank in Hb.
Qed.

Lemma not_empty_blank v :
  blank v = true -> not_empty v = Raise (ValueError "Field cannot be empty").
Proof.
  intros H. unfold not_empty. apply strip_blank in H. now rewrite H.
Qed.

Lemma not_empty_not_blank v : blank v = false -> not_empty v = Ok v.
Proof.
  intros H. unfold not_empty.
  destruct (Py.strip v) eqn:E; [|reflexivity].
  apply strip_blank in E. congruence.
Qed.

(** ** The JSON endpoint *)

Lemma validate_ok rt b c u :
  blank (raw_title b) = false ->
  blank (raw_description b) = false ->
  parse_datetime rt (raw_created_on b) = Some c ->
  parse_datetime rt (raw_due_by b) = Some u ->
  validate rt b = inr (mkPrintRequest (raw_title b) (raw_description b) c u).
Proof.
  intros Ht Hd Hc Hu. unfold validate.
  now rewrite (not_empty_not_blank _ Ht), (not_empty_not_blank _ Hd), Hc, Hu.
Qed.

Lemma print_via_api_ok rt p w w' :
  print_task rt (title p) (description p) (created_on p) (due_by p) w
  = (Ok tt, w') ->
  print_via_api rt p w = (Ok (JSONResponse 200 {[ "status" := "success" ]}), w').
Proof. intros H. unfold print_via_api, bind, attempt. now rewrite H. Qed.

Lemma print_via_api_raise rt p w w' e :
  print_task rt (title p) (description p) (created_on p) (due_by p) w
  = (Raise e, w') ->
  print_via_api rt p w
  = (Ok (JSONResponse 500 {[ "status" := "error"; "detail" := exn_str e ]}), w').
Proof. intros H. unfold print_via_api, bind, attempt. now rewrite H. Qed.

Lemma error_body_status (d : string) :
  ({[ "status" := "error"; "detail" := d ]} : gmap string string) !! "status"
  = Some "error".
Proof. apply lookup_insert_eq. Qed.

Lemma error_body_detail (d : string) :
  ({[ "status" := "error"; "detail" := d ]} : gmap string string) !! "detail"
  = Some d.
Proof. rewrite lookup_insert_ne by discriminate. apply lookup_singleton_eq. Qed.

(** C1. For a body that passes validation (title and description not blank,
    both timestamps readable), [POST /api/print] answers with the success
    status exactly when [print_task], called with the submitted values,
    returns without raising: then the answer is 200 with
    [{"status": "success"}], otherwise it is the 500 error body; the state
    the endpoint leaves is the one [print_task] leaves. *)
Theorem api_success_iff_print_succeeds rt b c u w :
  Py.strip (raw_title b) <> EmptyString ->
  Py.strip (raw_description b) <> EmptyString ->
  parse_datetime rt (raw_created_on b) = Some c ->
  parse_datetime rt (raw_due_by b) = Some u ->
  let printed := print_task rt (raw_title b) (raw_description b) c u w in
  let served := post_api_print rt b w in
  snd served = snd printed /\
  (fst printed = Ok tt ->
   fst served = Ok (JSONResponse 200 {[ "status" := "success" ]})) /\
  (forall r, fst served = Ok r ->
     (json_member "status" r = Some "success" <-> fst printed = Ok tt)) /\
  exists r, fst served = Ok r.
Proof.
  intros Ht Hd Hc Hu printed served. subst printed served.
  apply strip_not_blank in Ht, Hd.
  unfold post_api_print. rewrite (validate_ok rt b c u Ht Hd Hc Hu).
  destruct (print_task rt (raw_title b) (raw_description b) c u w)
    as [[[]|e] w'] eqn:E.
  - rewrite (print_via_api_ok rt _ w w') by exact E. cbn.
    split; [reflexivity|]. split; [reflexivity|]. split; [|eauto].
    intros r [= <-]. cbn. split; [reflexivity|]. intros _.
    apply lookup_singleton_eq.
  - rewrite (print_via_api_raise rt _ w w' e) by exact E. cbn.
    split; [reflexivity|]. split; [discriminate|]. split; [|eauto].
    intros r [= <-]. cbn. rewrite error_body_status. split; discriminate.
Qed.

(** C2. A body whose title or description is blank (empty or white space
    only) is answered with the validation error (status 422) and the state
    is left as it was: no driver call is made and [print_task] is not
    entered.  Each blank field is reported with the validator's
    [ValueError]. *)
Theorem blank_field_rejected_before_printing rt b w :
  blank (raw_title b) = true \/ blank (raw_description b) = true ->
  exists errs,
    post_api_print rt b w = (Ok (ValidationErrorResponse errs), w) /\
    status_of (ValidationErrorResponse errs) = 422 /\
    trace (snd (post_api_print rt b w)) = trace w /\
    print_task_calls (snd (post_api_print rt b w)) = print_task_calls w /\
    (blank (raw_title b) = true ->
     In (FieldError "title" (Some (ValueError "Field cannot be empty"))) errs) /\
    (blank (raw_description b) = true ->
     In (FieldError "description" (Some (ValueError "Field cannot be empty")))
        errs).
Proof.
  intros H. unfold post_api_print, validate.
  destruct (blank (raw_title b)) eqn:Ht.
  - rewrite (not_empty_blank _ Ht). cbn.
    eexists. repeat split; try reflexivity.
    + intros _. now left.
    + intros Hd. rewrite (not_empty_blank _ Hd). cbn. right. now left.
  - destruct H as [H|Hd]; [discriminate|].
    rewrite (not_empty_not_blank _ Ht), (not_empty_blank _ Hd). cbn.
    eexists. repeat split; try reflexivity; try discriminate.
    intros _. now left.
Qed.

Lemma api_success_iff_print_succeeds_witness :
  let printed := print_task quiet_runtime "Buy milk" "Two litres"
                   sample_created sample_due (fresh sample_env) in
  let served := post_api_print quiet_runtime sample_body (fresh sample_env) in
  snd served = snd printed /\
  (fst printed = Ok tt ->
   fst served = Ok (JSONResponse 200 {[ "status" := "success" ]})) /\
  (forall r, fst served = Ok r ->
     (json_member "status" r = Some "success" <-> fst printed = Ok tt)) /\
  exists r, fst served = Ok r.
Proof.
  apply (api_success_iff_print_succeeds quiet_runtime sample_body
           sample_created sample_due (fresh sample_env)).
  - vm_compute. discriminate.
  - vm_compute. discriminate.
  - reflexivity.
  - reflexivity.
Defined.

Lemma blank_field_rejected_before_printing_witness :
  exists errs,
    post_api_print quiet_runtime
      (mkRawBody "   " "Two litres" "2024-01-05T09:30" "2024-01-05T17:00")
      (fresh sample_env)
    = (Ok (ValidationErrorResponse errs), fresh sample_env).
Proof.
  destruct (blank_field_rejected_before_printing quiet_runtime
              (mkRawBody "   " "Two litres" "2024-01-05T09:30" "2024-01-05T17:00")
              (fresh sample_env)) as (errs & H & _).
  - left. reflexivity.
  - exists errs. exact H.
Defined.

(** C6. When [print_task] raises [e] during [POST /api/print], the handler
    answers 500 with the body [{"status": "error", "detail": str(e)}]: the
    detail is the text of the exception as it is, so it is non-empty
    whenever that text is. *)
Theorem api_failure_reports_exception_text rt p w e :
  fst (print_task rt (title p) (description p) (created_on p) (due_by p) w)
  = Raise e ->
  let r := JSONResponse 500 {[ "status" := "error"; "detail" := exn_str e ]} in
  fst (print_via_api rt p w) = Ok r /\
  status_of r = 500 /\
  json_member "status" r = Some "error" /\
  json_member "detail" r = Some (exn_str e) /\
  (exn_str e <> EmptyString ->
   exists d, json_member "detail" r = Some d /\ d <> EmptyString).
Proof.
  intros H r. subst r.
  destruct (print_task rt (title p) (description p) (created_on p) (due_by p) w)
    as [res w'] eqn:E.
  cbn in H. subst res.
  rewrite (print_via_api_raise rt p w w' e E). cbn.
  rewrite error_body_status, error_body_detail.
  repeat split; try reflexivity.
  intros Hne. exists (exn_str e). split; [reflexivity | exact Hne].
Qed.

Lemma api_failure_reports_exception_text_witness :
  fst (print_via_api (failing_runtime (Exn "USBError" "[Errno 19] No such device"))
         sample_request (fresh sample_env))
  = Ok (JSONResponse 500
          {[ "status" := "error"; "detail" := "[Errno 19] No such device" ]}).
Proof.
  apply (api_failure_reports_exception_text
           (failing_runtime (Exn "USBError" "[Errno 19] No such device"))
           sample_request (fresh sample_env)
           (Exn "USBError" "[Errno 19] No such device")).
  vm_compute. reflexivity.
Defined.

(** C6, as stated: the detail is not always non-empty.  A driver that fails
    with an exception whose text is empty (an [assert] that fails inside the
    driver gives such an [AssertionError]) makes [print_task] raise it, and
    the detail of the answer is the empty string. *)
Lemma failure_detail_can_be_empty :
  ~ failure_detail_is_nonempty_text
      (failing_runtime (Exn "AssertionError" EmptyString))
      sample_request (fresh sample_env).
Proof.
  intros H.
  destruct (H (Exn "AssertionError" EmptyString)) as (d & _ & Hne & Hd).
  - vm_compute. reflexivity.
  - apply Hne. exact Hd.
Qed.

(** ** The form endpoint *)

(** C7. When [created_on] or [due_by] of a form submission is not a
    readable date-time, [POST /print] answers 400 with the text
    "Invalid date/time format" and leaves the state as it was: no driver
    call is made and [print_task] is not entered. *)
Theorem unreadable_datetime_is_400 rt t d co du w :
  fromisoformat rt co = None \/ fromisoformat rt du = None ->
  let served := print_from_form rt t d co du w in
  served = (Ok (HTMLResponse "Invalid date/time format" 400), w) /\
  trace (snd served) = trace w /\
  print_task_calls (snd served) = print_task_calls w.
Proof.
  intros H served. subst served.
  assert (E : print_from_form rt t d co du w
              = (Ok (HTMLResponse "Invalid date/time format" 400), w)).
  { unfold print_from_form, bind, attempt, fromisoformat_, raise, ret.
    destruct (fromisoformat rt co) as [c|] eqn:Hc.
    - destruct H as [H|H]; [discriminate|]. rewrite H. reflexivity.
    - reflexivity. }
  rewrite E. auto.
Qed.

Lemma unreadable_datetime_is_400_witness :
  print_from_form quiet_runtime "Buy milk" "Two litres" "tomorrow"
    "2024-01-05T17:00" (fresh sample_env)
  = (Ok (HTMLResponse "Invalid date/time format" 400), fresh sample_env).
Proof.
  apply (unreadable_datetime_is_400 quiet_runtime "Buy milk" "Two litres"
           "tomorrow" "2024-01-05T17:00" (fresh sample_env)).
  left. reflexivity.
Defined.

(** ** The printer layer: driver calls *)

Lemma with_events_nil w : with_events [] w = w.
Proof. destruct w. unfold with_events. cbn. now rewrite app_nil_r. Qed.

Lemma with_events_app evs evs' w :
  with_events evs' (with_events evs w) = with_events (evs ++ evs') w.
Proof. unfold with_events. cbn. now rewrite app_assoc. Qed.

Lemma with_entry_events a evs w :
  with_entry a (with_events evs w) = with_events evs (with_entry a w).
Proof. reflexivity. Qed.

Lemma printer_call_set rt c w u :
  _printer w = Some u ->
  printer_call rt c w
  = (match driver rt (trace w) c with None => Ok tt | Some e => Raise e end,
     with_events [Ev c (driver rt (trace w) c)] w).
Proof.
  intros H. unfold printer_call, bind, get_printer. rewrite H. reflexivity.
Qed.

Lemma send_all_cons rt c cs w u :
  _printer w = Some u ->
  send_all rt (c :: cs) w
  = match driver rt (trace w) c with
    | Some e => (Raise e, with_events [Ev c (Some e)] w)
    | None => send_all rt cs (with_events [Ev c None] w)
    end.
Proof.
  intros Hu. unfold send_all. cbn [for_each]. unfold bind.
  rewrite (printer_call_set rt c w u Hu).
  destruct (driver rt (trace w) c); reflexivity.
Qed.

(** The calls of [send_all] are made in order until one raises: the events
    added are those of a prefix of the list, of the whole list when the
    result is a normal return. *)
Lemma send_all_events rt cs : forall w u,
  _printer w = Some u ->
  exists evs,
    snd (send_all rt cs w) = with_events evs w /\
    map ev_call evs `prefix_of` cs /\
    (fst (send_all rt cs w) = Ok tt ->
     map ev_call evs = cs /\ Forall (fun e => ev_raised e = None) evs) /\
    (forall e, fst (send_all rt cs w) = Raise e ->
     exists evs0 c, evs = evs0 ++ [Ev c (Some e)]).
Proof.
  induction cs as [|c cs IH]; intros w u Hu.
  - exists []. cbn. rewrite with_events_nil.
    split; [reflexivity|]. split; [apply prefix_nil|].
    split; [auto | discriminate].
  - rewrite (send_all_cons rt c cs w u Hu).
    destruct (driver rt (trace w) c) as [e|] eqn:Ed.
    + exists [Ev c (Some e)]. cbn.
      split; [reflexivity|]. split; [apply prefix_cons, prefix_nil|].
      split; [discriminate|].
      intros e' [= <-]. exists [], c. reflexivity.
    + destruct (IH (with_events [Ev c None] w) u Hu)
        as (evs & Hs & Hp & Hok & Hr).
      exists (Ev c None :: evs).
      rewrite Hs, with_events_app. cbn.
      split; [reflexivity|]. split; [apply prefix_cons, Hp|]. split.
      * intros H. destruct (Hok H) as [Hc Hn]. split.
        -- now f_equal.
        -- now constructor.
      * intros e He. destruct (Hr e He) as (evs0 & c0 & ->).
        exists (Ev c None :: evs0), c0. reflexivity.
Qed.

Lemma send_all_returns rt cs : forall w u,
  _printer w = Some u ->
  (forall hist c, In c cs -> driver rt hist c = None) ->
  fst (send_all rt cs w) = Ok tt.
Proof.
  induction cs as [|c cs IH]; intros w u Hu Hq; [reflexivity|].
  rewrite (send_all_cons rt c cs w u Hu), (Hq (trace w) c) by now left.
  apply (IH (with_events [Ev c None] w) u Hu).
  intros hist c' Hin. apply Hq. now right.
Qed.

(** ** The printer layer: initialization *)

Ltac open_init :=
  unfold _init_printer, bind, environ_get, environ_get_or, attempt, int_base16,
    int_, lift, int_str, Usb_new, driver_call, ret, raise; cbn.

(** The three ways [_init_printer] ends: it raises before the driver is
    called, the constructor raises, or the constructor returns the
    handle. *)
Lemma init_cases rt w :
  (exists e, _init_printer rt w = (Raise e, w)) \/
  (exists vid pid i pr e,
     _init_printer rt w
     = (Raise e, with_events [Ev (UsbNew vid pid i pr) (Some e)] w)) \/
  (exists vid pid i pr,
     _init_printer rt w
     = (Ok (mkUsb vid pid i pr), with_events [Ev (UsbNew vid pid i pr) None] w)).
Proof.
  open_init.
  destruct (environ w !! "PRINTER_VENDOR_ID") as [v|]; cbn; [|eauto].
  destruct (environ w !! "PRINTER_PRODUCT_ID") as [p|]; cbn;
    [|rewrite orb_true_r; eauto].
  destruct (negb (Py.truthy v) || negb (Py.truthy p)); [eauto|].
  destruct (Py.int_literal 16 v) as [vid|]; cbn; [|eauto].
  destruct (Py.int_literal 16 p) as [pid|]; cbn; [|eauto].
  destruct (environ w !! "PRINTER_INTERFACE") as [s|]; cbn.
  - destruct (Py.int_literal 10 s) as [i|]; cbn; [|eauto].
    destruct (driver rt (trace w) _) as [e|] eqn:E; cbn.
    + right; left. eauto 10.
    + right; right. eauto 10.
  - destruct (driver rt (trace w) _) as [e|] eqn:E; cbn.
    + right; left. eauto 10.
    + right; right. eauto 10.
Qed.

(** [_init_printer] reads the environment and the trace only. *)
Lemma init_frame rt a w :
  _init_printer rt (with_entry a w)
  = (fst (_init_printer rt w), with_entry a (snd (_init_printer rt w))).
Proof.
  open_init.
  destruct (environ w !! "PRINTER_VENDOR_ID") as [v|]; cbn; [|reflexivity].
  destruct (environ w !! "PRINTER_PRODUCT_ID") as [p|]; cbn;
    [|rewrite orb_true_r; reflexivity].
  destruct (negb (Py.truthy v) || negb (Py.truthy p)); [reflexivity|].
  destruct (Py.int_literal 16 v) as [vid|]; cbn; [|reflexivity].
  destruct (Py.int_literal 16 p) as [pid|]; cbn; [|reflexivity].
  destruct (environ w !! "PRINTER_INTERFACE") as [s|]; cbn.
  - destruct (Py.int_literal 10 s) as [i|]; cbn; [|reflexivity].
    destruct (driver rt (trace w) _); reflexivity.
  - destruct (driver rt (trace w) _); reflexivity.
Qed.

Lemma int_literal_empty base : Py.int_literal base EmptyString = None.
Proof. reflexivity. Qed.

Lemma bad_id_falsy x : falsy x = true -> bad_id x = true.
Proof.
  destruct x as [[|c s]|]; cbn; try reflexivity. discriminate.
Qed.

(** A refused ID stops [_init_printer] with a configuration error before
    anything else happens. *)
Lemma init_bad_id rt w :
  bad_id (environ w !! "PRINTER_VENDOR_ID")
  || bad_id (environ w !! "PRINTER_PRODUCT_ID") = true ->
  exists e, is_config_error e /\ _init_printer rt w = (Raise e, w).
Proof.
  intros H. open_init. unfold is_config_error.
  destruct (environ w !! "PRINTER_VENDOR_ID") as [v|]; cbn; [|eauto].
  destruct (environ w !! "PRINTER_PRODUCT_ID") as [p|]; cbn;
    [|rewrite orb_true_r; eauto].
  destruct (negb (Py.truthy v) || negb (Py.truthy p)); [eauto|].
  cbn in H.
  destruct (Py.int_literal 16 v) as [vid|]; cbn; [|eauto].
  destruct (Py.int_literal 16 p) as [pid|]; cbn; [|eauto].
  discriminate.
Qed.

(** ** The printer layer: [ensure_printer_ready] and [print_task] *)

Lemma ensure_set rt w u :
  _printer w = Some u -> ensure_printer_ready rt w = (Ok tt, w).
Proof.
  intros H. unfold ensure_printer_ready, bind, get_printer. now rewrite H.
Qed.

Lemma ensure_unset rt w :
  _printer w = None ->
  ensure_printer_ready rt w
  = match _init_printer rt w with
    | (Ok u, w') => (Ok tt, with_printer (Some u) w')
    | (Raise e, w') => (Raise e, w')
    end.
Proof.
  intros H. unfold ensure_printer_ready, bind, get_printer. rewrite H.
  destruct (_init_printer rt w) as [[u|e] w']; reflexivity.
Qed.

Lemma body_is_send_all rt t d c u w :
  (printer_call rt (DevSet [("align", "left"); ("text_type", "b")]) ;;;
   printer_call rt (DevTextln (t +:+ Py.nl)) ;;;
   printer_call rt (DevSet [("text_type", "normal")]) ;;;
   for_each [d; "Created: " +:+ strftime c "%Y-%m-%d %H:%M";
             "Due:     " +:+ strftime u "%Y-%m-%d %H:%M"]
     (fun line => printer_call rt (DevTextln (line +:+ Py.nl))) ;;;
   printer_call rt DevCut) w
  = send_all rt (expected_calls t d c u) w.
Proof.
  unfold send_all, expected_calls. cbn [for_each]. unfold bind, ret.
  repeat match goal with
         | |- context [printer_call rt ?c ?w] =>
             destruct (printer_call rt c w) as [[[]|?] ?]
         end; reflexivity.
Qed.

Lemma print_task_set rt t d c u w p :
  _printer w = Some p ->
  print_task rt t d c u w
  = send_all rt (expected_calls t d c u) (with_entry (TaskArgs t d c u) w).
Proof.
  intros H. rewrite <- body_is_send_all.
  unfold print_task. unfold bind at 1 2 3. unfold get_printer.
  cbn [with_entry _printer task_lines]. rewrite H. reflexivity.
Qed.

Lemma print_task_unset rt t d c u w :
  _printer w = None ->
  print_task rt t d c u w
  = match _init_printer rt (with_entry (TaskArgs t d c u) w) with
    | (Ok p, w') =>
        send_all rt (expected_calls t d c u) (with_printer (Some p) w')
    | (Raise e, w') => (Raise e, w')
    end.
Proof.
  intros H.
  unfold print_task. unfold bind at 1 2 3. unfold get_printer.
  cbn [with_entry _printer task_lines]. rewrite H. unfold bind at 1.
  destruct (_init_printer rt _) as [[p|e] w'].
  - unfold set_printer. rewrite <- body_is_send_all. reflexivity.
  - reflexivity.
Qed.

Lemma expected_are_device_calls t d c u :
  Forall (fun x => is_device_call x = true) (expected_calls t d c u).
Proof. repeat constructor. Qed.

Lemma filter_all (A : Type) (f : A -> bool) (l : list A) :
  Forall (fun x => f x = true) l -> List.filter f l = l.
Proof.
  induction 1 as [|x l Hx _ IH]; cbn; [reflexivity|]. now rewrite Hx, IH.
Qed.

Lemma prefix_device_calls (l : list call) t d c u :
  l `prefix_of` expected_calls t d c u ->
  Forall (fun x => is_device_call x = true) l.
Proof.
  intros [k Hk]. pose proof (expected_are_device_calls t d c u) as H.
  rewrite Hk in H. now apply Forall_app in H.
Qed.

Lemma constructions_app l l' :
  constructions (l ++ l') = (constructions l + constructions l')%nat.
Proof. unfold constructions. now rewrite List.filter_app, length_app. Qed.

Lemma constructions_device evs :
  Forall (fun x => is_device_call x = true) (map ev_call evs) ->
  constructions evs = 0%nat.
Proof.
  unfold constructions.
  induction evs as [|[c r] evs IH]; cbn; [reflexivity|].
  intros H. apply Forall_cons in H as [Hc H].
  destruct c; cbn in *; try discriminate; now apply IH.
Qed.

(** What one call of [print_task] does to the state: the entry is
    recorded, the environment is kept, and the trace grows by at most one
    constructor call (when the singleton was unset) followed by method
    calls that are a prefix of the expected ones. *)
Lemma print_task_effect rt t d c u w :
  exists pre evs,
    let w' := snd (print_task rt t d c u w) in
    let r := fst (print_task rt t d c u w) in
    environ w' = environ w /\
    print_task_calls w' = print_task_calls w ++ [TaskArgs t d c u] /\
    trace w' = trace w ++ pre ++ evs /\
    map ev_call evs `prefix_of` expected_calls t d c u /\
    (r = Ok tt ->
     map ev_call evs = expected_calls t d c u /\
     Forall (fun e => ev_raised e = None) (pre ++ evs)) /\
    ((pre = [] /\ _printer w' = _printer w) \/
     (exists vid pid i pr e,
        _printer w = None /\ _printer w' = None /\ evs = [] /\
        pre = [Ev (UsbNew vid pid i pr) (Some e)]) \/
     (exists vid pid i pr,
        _printer w = None /\ _printer w' = Some (mkUsb vid pid i pr) /\
        pre = [Ev (UsbNew vid pid i pr) None])).
Proof.
  set (a := TaskArgs t d c u).
  destruct (_printer w) as [p|] eqn:Hp.
  - rewrite (print_task_set rt t d c u w p Hp). fold a.
    destruct (send_all_events rt (expected_calls t d c u) (with_entry a w) p Hp)
      as (evs & Hs & Hpre & Hok & _).
    exists [], evs. cbn zeta. rewrite Hs. cbn.
    split; [reflexivity|]. split; [reflexivity|]. split; [reflexivity|].
    split; [exact Hpre|]. split; [exact Hok|]. left. auto.
  - rewrite (print_task_unset rt t d c u w Hp). fold a.
    destruct (init_cases rt (with_entry a w))
      as [(e & E) | [(vid & pid & i & pr & e & E) | (vid & pid & i & pr & E)]];
      rewrite E.
    + exists [], []. cbn. rewrite app_nil_r.
      split; [reflexivity|]. split; [reflexivity|]. split; [reflexivity|].
      split; [apply prefix_nil|]. split; [discriminate|]. left. auto.
    + exists [Ev (UsbNew vid pid i pr) (Some e)], []. cbn.
      split; [reflexivity|]. split; [reflexivity|]. split; [reflexivity|].
      split; [apply prefix_nil|]. split; [discriminate|].
      right; left. exists vid, pid, i, pr, e. auto.
    + set (w1 := with_printer _ _).
      destruct (send_all_events rt (expected_calls t d c u) w1
                  (mkUsb vid pid i pr) eq_refl)
        as (evs & Hs & Hpre & Hok & _).
      exists [Ev (UsbNew vid pid i pr) None], evs. cbn zeta. rewrite Hs.
      subst w1. cbn. rewrite <- app_assoc.
      split; [reflexivity|]. split; [reflexivity|]. split; [reflexivity|].
      split; [exact Hpre|]. split.
      * intros H. destruct (Hok H) as [Hc Hn]. split; [exact Hc|].
        now constructor.
      * right; right. exists vid, pid, i, pr. auto.
Qed.

Lemma append_assoc (a b c : string) : (a +:+ b) +:+ c = a +:+ (b +:+ c).
Proof.
  induction a as [|x a IH]; [reflexivity|].
  change (String x ((a +:+ b) +:+ c) = String x (a +:+ b +:+ c)).
  now f_equal.
Qed.

(** C4. One call of [print_task] makes these method calls on the handle, in
    this order and no others: [set] for bold, [textln] of the title,
    [set] for normal, [textln] of the description, of the Created line and
    of the Due line, and [cut] last.  The sequence is complete exactly
    when no call raises; it stops at the first call that raises, so what was
    made is always a prefix of it.  Each [textln] argument is the line
    followed by a line feed, so that the device prints the line, its
    terminator and one empty line.  With a handle in place and a device
    that does not fail, the call returns. *)
Theorem print_task_call_sequence rt t d c u w :
  let r := fst (print_task rt t d c u w) in
  let w' := snd (print_task rt t d c u w) in
  exists evs,
    trace w' = trace w ++ evs /\
    device_calls evs `prefix_of` expected_calls t d c u /\
    (r = Ok tt ->
     device_calls evs = expected_calls t d c u /\
     last (map ev_call evs) = Some DevCut /\
     Forall (fun e => ev_raised e = None) evs) /\
    omap printed_text (expected_calls t d c u)
    = map (fun line => line +:+ Py.nl +:+ Py.nl) (task_lines t d c u) /\
    ((forall hist x, is_device_call x = true -> driver rt hist x = None) ->
     _printer w <> None -> r = Ok tt).
Proof.
  intros r w'. subst r w'.
  destruct (print_task_effect rt t d c u w)
    as (pre & evs & _ & _ & Htr & Hpre & Hok & Hcases).
  cbn zeta in *.
  assert (Hdev : device_calls (pre ++ evs) = map ev_call evs).
  { unfold device_calls. rewrite map_app, List.filter_app.
    rewrite (filter_all _ _ (map ev_call evs))
      by (eapply prefix_device_calls; exact Hpre).
    destruct Hcases as [[-> _] | [(? & ? & ? & ? & ? & _ & _ & _ & ->)
                                 | (? & ? & ? & ? & _ & _ & ->)]];
      reflexivity. }
  exists (pre ++ evs). rewrite Hdev.
  split; [exact Htr|]. split; [exact Hpre|]. split; [|split].
  - intros H. destruct (Hok H) as [Hc Hn].
    split; [exact Hc|]. split; [|exact Hn].
    rewrite map_app, Hc, last_app. reflexivity.
  - cbn. unfold textln_output. now rewrite !append_assoc.
  - intros Hq Hset. destruct (_printer w) as [p|] eqn:Hp; [|congruence].
    rewrite (print_task_set rt t d c u w p Hp).
    apply (send_all_returns rt _ (with_entry _ w) p Hp).
    intros hist x Hin. apply Hq.
    pose proof (expected_are_device_calls t d c u) as Hall.
    rewrite List.Forall_forall in Hall. now apply Hall.
Qed.

Example complete_run_example :
  let w' := snd (print_task quiet_runtime "Buy milk" "Two litres"
                   sample_created sample_due (fresh sample_env)) in
  map ev_call (trace w')
  = UsbNew 1046 20497 0 None
    :: expected_calls "Buy milk" "Two litres" sample_created sample_due.
Proof. vm_compute. reflexivity. Qed.

(** ** The date-time layout *)








(** ** Configuration errors *)

Lemma print_task_init_raises rt t d c u w e :
  _printer w = None ->
  _init_printer rt w = (Raise e, w) ->
  print_task rt t d c u w = (Raise e, with_entry (TaskArgs t d c u) w).
Proof.
  intros Hp Hi. rewrite (print_task_unset rt t d c u w Hp), init_frame, Hi.
  reflexivity.
Qed.

Lemma ensure_init_raises rt w e w' :
  _printer w = None ->
  _init_printer rt w = (Raise e, w') ->
  ensure_printer_ready rt w = (Raise e, w').
Proof. intros Hp Hi. now rewrite (ensure_unset rt w Hp), Hi. Qed.

(** C5. When [PRINTER_VENDOR_ID] or [PRINTER_PRODUCT_ID] is missing or is
    not a hexadecimal literal, [_init_printer] raises a [ValueError] that is
    one of its two configuration errors, before the driver is called.  With
    the singleton unset, [ensure_printer_ready] at startup and
    [print_task] both raise that error. *)
Theorem bad_id_is_configuration_error rt w :
  bad_id (environ w !! "PRINTER_VENDOR_ID")
  || bad_id (environ w !! "PRINTER_PRODUCT_ID") = true ->
  exists e,
    is_config_error e /\ exn_class e = "ValueError" /\
    _init_printer rt w = (Raise e, w) /\
    (_printer w = None ->
     startup rt w = (Raise e, w) /\
     forall t d c u,
       print_task rt t d c u w = (Raise e, with_entry (TaskArgs t d c u) w)).
Proof.
  intros H. destruct (init_bad_id rt w H) as (e & He & Hi).
  exists e. split; [exact He|]. split; [destruct He as [->| ->]; reflexivity|].
  split; [exact Hi|]. intros Hp. split.
  - exact (ensure_init_raises rt w e w Hp Hi).
  - intros t d c u. exact (print_task_init_raises rt t d c u w e Hp Hi).
Qed.

Lemma bad_id_is_configuration_error_witness :
  exists e,
    is_config_error e /\ exn_class e = "ValueError" /\
    _init_printer quiet_runtime
      (fresh {[ "PRINTER_VENDOR_ID" := "0xZZ"; "PRINTER_PRODUCT_ID" := "0x5011" ]})
    = (Raise e,
       fresh {[ "PRINTER_VENDOR_ID" := "0xZZ"; "PRINTER_PRODUCT_ID" := "0x5011" ]}).
Proof.
  destruct (bad_id_is_configuration_error quiet_runtime
              (fresh {[ "PRINTER_VENDOR_ID" := "0xZZ";
                        "PRINTER_PRODUCT_ID" := "0x5011" ]}))
    as (e & He & Hc & Hi & _).
  - vm_compute. reflexivity.
  - exists e. auto.
Defined.

Example missing_vendor_example :
  startup quiet_runtime (fresh {[ "PRINTER_PRODUCT_ID" := "0x5011" ]})
  = (Raise ids_must_be_set, fresh {[ "PRINTER_PRODUCT_ID" := "0x5011" ]}).
Proof. vm_compute. reflexivity. Qed.

Example non_hex_vendor_example :
  fst (startup quiet_runtime
         (fresh {[ "PRINTER_VENDOR_ID" := "0xZZ"; "PRINTER_PRODUCT_ID" := "0x5011" ]}))
  = Raise ids_must_be_hex.
Proof. vm_compute. reflexivity. Qed.

(** C10. With both IDs present and hexadecimal, a [PRINTER_INTERFACE] that
    is not a decimal integer literal makes [_init_printer] raise the
    [ValueError] of [int()] itself, "invalid literal for int() with base
    10: ...".  It is neither of the configuration errors, nothing catches
    it, and the driver is not called; at startup it leaves
    [ensure_printer_ready] as it is. *)
Theorem bad_interface_raises_int_error rt w s :
  bad_id (environ w !! "PRINTER_VENDOR_ID") = false ->
  bad_id (environ w !! "PRINTER_PRODUCT_ID") = false ->
  environ w !! "PRINTER_INTERFACE" = Some s ->
  Py.int_literal 10 s = None ->
  let e := invalid_literal 10 s in
  _init_printer rt w = (Raise e, w) /\
  exn_class e = "ValueError" /\
  ~ is_config_error e /\
  (_printer w = None -> startup rt w = (Raise e, w)).
Proof.
  intros Hv Hp Hs Hi e. subst e.
  assert (E : _init_printer rt w = (Raise (invalid_literal 10 s), w)).
  { destruct (environ w !! "PRINTER_VENDOR_ID") as [v|] eqn:Lv; [|discriminate].
    destruct (environ w !! "PRINTER_PRODUCT_ID") as [p|] eqn:Lp; [|discriminate].
    unfold bad_id in Hv, Hp.
    destruct (Py.int_literal 16 v) as [vid|] eqn:Ev; [|discriminate].
    destruct (Py.int_literal 16 p) as [pid|] eqn:Ep; [|discriminate].
    assert (Tv : Py.truthy v = true)
      by (destruct v; [rewrite int_literal_empty in Ev; discriminate | reflexivity]).
    assert (Tp : Py.truthy p = true)
      by (destruct p; [rewrite int_literal_empty in Ep; discriminate | reflexivity]).
    unfold _init_printer, bind, environ_get, environ_get_or, attempt,
      int_base16, int_, lift, int_str, falsy, ret, raise.
    rewrite Lv, Lp, Tv, Tp. cbn [negb orb]. rewrite Ev, Ep. cbv beta iota.
    rewrite Hs. cbv beta iota. rewrite Hi. reflexivity. }
  split; [exact E|]. split; [reflexivity|]. split.
  - intros [H|H]; vm_compute in H; discriminate H.
  - intros Hn. exact (ensure_init_raises rt w _ w Hn E).
Qed.

Lemma bad_interface_raises_int_error_witness :
  _init_printer quiet_runtime
    (fresh (<[ "PRINTER_INTERFACE" := "first" ]> sample_env))
  = (Raise (ValueError "invalid literal for int() with base 10: 'first'"),
     fresh (<[ "PRINTER_INTERFACE" := "first" ]> sample_env)).
Proof.
  apply (bad_interface_raises_int_error quiet_runtime
           (fresh (<[ "PRINTER_INTERFACE" := "first" ]> sample_env)) "first").
  - vm_compute. reflexivity.
  - vm_compute. reflexivity.
  - vm_compute. reflexivity.
  - vm_compute. reflexivity.
Defined.

(** ** The form endpoint and [print_task] *)



(** ** The singleton *)

Lemma run_op_consistent rt o w : consistent w -> consistent (run_op rt o w).
Proof.
  unfold consistent. intros H. destruct o as [|[t d c u]]; cbn [run_op].
  - destruct (_printer w) as [p|] eqn:Hp.
    + rewrite (ensure_set rt w p Hp). cbn. now rewrite Hp.
    + rewrite (ensure_unset rt w Hp).
      destruct (init_cases rt w)
        as [(e & E) | [(vid & pid & i & pr & e & E) | (vid & pid & i & pr & E)]];
        rewrite E; cbn [snd trace _printer with_events with_printer].
      * now rewrite Hp.
      * rewrite Hp, constructions_app, H. reflexivity.
      * rewrite constructions_app, H. reflexivity.
  - cbn [arg_title arg_description arg_created arg_due].
    destruct (print_task_effect rt t d c u w)
      as (pre & evs & _ & _ & Htr & Hpre & _ & Hcases).
    cbn zeta in *. rewrite Htr, !constructions_app, H.
    rewrite (constructions_device evs)
      by (eapply prefix_device_calls; exact Hpre).
    destruct Hcases as [[-> ->] | [(? & ? & ? & ? & ? & -> & -> & _ & ->)
                                  | (? & ? & ? & ? & -> & -> & ->)]];
      cbn; lia.
Qed.

Lemma run_ops_consistent rt ops : forall w,
  consistent w -> consistent (run_ops rt ops w).
Proof.
  induction ops as [|o ops IH]; intros w H; [exact H|].
  apply IH, run_op_consistent, H.
Qed.

Lemma run_op_keeps_handle rt o w p :
  _printer w = Some p -> _printer (run_op rt o w) = Some p.
Proof.
  intros Hp. destruct o as [|[t d c u]]; cbn [run_op].
  - now rewrite (ensure_set rt w p Hp).
  - cbn [arg_title arg_description arg_created arg_due].
    destruct (print_task_effect rt t d c u w)
      as (pre & evs & _ & _ & _ & _ & _ & Hcases).
    cbn zeta in *.
    destruct Hcases as [[_ ->] | [(? & ? & ? & ? & ? & Hn & _)
                                 | (? & ? & ? & ? & Hn & _)]];
      congruence.
Qed.

Lemma run_ops_keeps_handle rt ops : forall w p,
  _printer w = Some p -> _printer (run_ops rt ops w) = Some p.
Proof.
  induction ops as [|o ops IH]; intros w p H; [exact H|].
  apply IH, run_op_keeps_handle, H.
Qed.

(** C8. In a process that starts with the singleton unset, after any
    sequence of [ensure_printer_ready] and [print_task] calls the
    constructor has returned a handle at most once, and a handle that is
    set stays the same.  [ensure_printer_ready] with the singleton set
    returns and changes nothing.  [print_task] with the singleton unset
    runs the construction of [ensure_printer_ready]: when that raises,
    [print_task] raises the same exception in the same state, and when it
    returns, [print_task] goes on as it does with the handle in place. *)
Theorem singleton_constructed_at_most_once rt :
  (forall env ops,
     (constructions (trace (run_ops rt ops (fresh env))) <= 1)%nat) /\
  (forall ops w p,
     _printer w = Some p -> _printer (run_ops rt ops w) = Some p) /\
  (forall w p, _printer w = Some p -> ensure_printer_ready rt w = (Ok tt, w)) /\
  (forall w t d c u,
     _printer w = None ->
     (forall e w',
        ensure_printer_ready rt w = (Raise e, w') ->
        print_task rt t d c u w
        = (Raise e, with_entry (TaskArgs t d c u) w')) /\
     (forall w',
        ensure_printer_ready rt w = (Ok tt, w') ->
        print_task rt t d c u w = print_task rt t d c u w')).
Proof.
  split; [|split; [|split]].
  - intros env ops.
    assert (H : consistent (run_ops rt ops (fresh env)))
      by (apply run_ops_consistent; reflexivity).
    unfold consistent in H. rewrite H.
    destruct (_printer _); lia.
  - intros ops w p. apply run_ops_keeps_handle.
  - intros w p. apply ensure_set.
  - intros w t d c u Hp. rewrite (ensure_unset rt w Hp).
    rewrite (print_task_unset rt t d c u w Hp), init_frame.
    destruct (_init_printer rt w) as [[p|e] w1]; cbn [fst snd]; split.
    + discriminate.
    + intros w' [= <-].
      now rewrite (print_task_set rt t d c u (with_printer (Some p) w1) p eq_refl).
    + now intros e' w' [= <- <-].
    + discriminate.
Qed.

Example second_call_constructs_nothing :
  constructions
    (trace (run_ops quiet_runtime
              [DoEnsure; DoPrint (TaskArgs "a" "b" sample_created sample_due);
               DoEnsure; DoPrint (TaskArgs "c" "d" sample_created sample_due)]
              (fresh sample_env)))
  = 1%nat.
Proof. vm_compute. reflexivity. Qed.

(** * Further properties of the code *)

(** ** The validator *)

(** X1. [not_empty] accepts a text exactly when it has a character that is
    not white space, and then returns it as it is: nothing is trimmed. It
    raises "Field cannot be empty" exactly for the blank texts. *)
Theorem not_empty_accepts_exactly_non_blank v :
  (blank v = false <-> not_empty v = Ok v) /\
  (blank v = true <-> not_empty v = Raise (ValueError "Field cannot be empty")) /\
  (forall v', not_empty v = Ok v' -> v' = v).
Proof.
  destruct (blank v) eqn:Hb.
  - rewrite (not_empty_blank v Hb).
    split; [split; discriminate|]. split; [split; reflexivity | discriminate].
  - rewrite (not_empty_not_blank v Hb).
    split; [split; reflexivity|]. split; [split; discriminate|].
    now intros v' [= <-].
Qed.

Example not_empty_keeps_spaces : not_empty "  Buy milk " = Ok "  Buy milk ".
Proof. reflexivity. Qed.

(** ** The handlers always answer *)

Lemma print_from_form_parsed rt t d co du c u w :
  fromisoformat rt co = Some c ->
  fromisoformat rt du = Some u ->
  print_from_form rt t d co du w
  = match print_task rt t d c u w with
    | (Ok _, w') =>
        (Ok (TemplateResponse "confirmation.html" (mkConfirmation t d c u)), w')
    | (Raise e, w') =>
        (Ok (HTMLResponse ("Error printing: " +:+ exn_str e) 500), w')
    end.
Proof.
  intros Hc Hu. unfold print_from_form, bind, attempt, fromisoformat_, ret.
  rewrite Hc, Hu. cbv beta iota.
  destruct (print_task rt t d c u w) as [[[]|e] w']; reflexivity.
Qed.

Lemma print_from_form_unparsed rt t d co du w :
  fromisoformat rt co = None \/ fromisoformat rt du = None ->
  print_from_form rt t d co du w
  = (Ok (HTMLResponse "Invalid date/time format" 400), w).
Proof.
  intros H. unfold print_from_form, bind, attempt, fromisoformat_, raise, ret.
  destruct (fromisoformat rt co) as [c|].
  - destruct H as [H|H]; [discriminate|]. now rewrite H.
  - reflexivity.
Qed.

(** X2. [POST /print] never lets an exception out: whatever the form
    fields, the driver and the configuration, the handler returns a
    response, and its status is 400, 500 or 200: 400 exactly when a
    date-time is unreadable, otherwise 200 exactly when [print_task]
    returned. *)
Theorem form_always_answers rt t d co du w :
  exists r,
    fst (print_from_form rt t d co du w) = Ok r /\
    (status_of r = 200 \/ status_of r = 400 \/ status_of r = 500) /\
    (status_of r = 400 <->
     fromisoformat rt co = None \/ fromisoformat rt du = None) /\
    (forall c u,
       fromisoformat rt co = Some c -> fromisoformat rt du = Some u ->
       (status_of r = 200 <-> fst (print_task rt t d c u w) = Ok tt)).
Proof.
  destruct (fromisoformat rt co) as [c|] eqn:Hc;
    [destruct (fromisoformat rt du) as [u|] eqn:Hu|].
  - rewrite (print_from_form_parsed rt t d co du c u w Hc Hu).
    destruct (print_task rt t d c u w) as [[[]|e] w'] eqn:E; cbn [fst].
    + eexists. split; [reflexivity|]. cbn [status_of fst snd]. split; [auto|]. split.
      * split; [discriminate | intros [H|H]; discriminate].
      * intros c' u' [= <-] [= <-]. rewrite E. cbn [fst]. tauto.
    + eexists. split; [reflexivity|]. cbn [status_of fst snd]. split; [auto|]. split.
      * split; [discriminate | intros [H|H]; discriminate].
      * intros c' u' [= <-] [= <-]. rewrite E. cbn [fst]. split; discriminate.
  - rewrite (print_from_form_unparsed rt t d co du w) by (right; exact Hu).
    eexists. split; [reflexivity|]. cbn [status_of fst snd]. split; [auto|]. split.
    + split; auto.
    + intros c' u' _ H. discriminate H.
  - rewrite (print_from_form_unparsed rt t d co du w) by (left; exact Hc).
    eexists. split; [reflexivity|]. cbn [status_of fst snd]. split; [auto|]. split.
    + split; auto.
    + intros c' u' H. discriminate H.
Qed.

(** X3. [POST /api/print] never lets an exception out either: the answer
    is the validation error (422, state unchanged) when the body is
    refused, and otherwise the handler's 200 or 500. *)
Theorem api_always_answers rt b w :
  exists r,
    fst (post_api_print rt b w) = Ok r /\
    (status_of r = 200 \/ status_of r = 422 \/ status_of r = 500) /\
    (status_of r = 422 <-> exists errs, validate rt b = inl errs) /\
    (status_of r = 422 -> snd (post_api_print rt b w) = w) /\
    (forall p, validate rt b = inr p ->
       (status_of r = 200 <->
        fst (print_task rt (title p) (description p) (created_on p)
               (due_by p) w) = Ok tt)).
Proof.
  unfold post_api_print. destruct (validate rt b) as [errs|p] eqn:Hv.
  - eexists. split; [reflexivity|]. cbn [status_of fst snd]. split; [auto|]. split; [|split].
    + split; eauto.
    + reflexivity.
    + intros p H. discriminate H.
  - destruct (print_task rt (title p) (description p) (created_on p)
                (due_by p) w) as [[[]|e] w'] eqn:E.
    + rewrite (print_via_api_ok rt p w w' E).
      eexists. split; [reflexivity|]. cbn [status_of fst snd]. split; [auto|]. split; [|split].
      * split; [discriminate | intros [errs H]; discriminate H].
      * discriminate.
      * intros p' [= <-]. rewrite E. cbn [fst]. tauto.
    + rewrite (print_via_api_raise rt p w w' e E).
      eexists. split; [reflexivity|]. cbn [status_of fst snd]. split; [auto|]. split; [|split].
      * split; [discriminate | intros [errs H]; discriminate H].
      * discriminate.
      * intros p' [= <-]. rewrite E. cbn [fst]. split; discriminate.
Qed.

(** ** Reading the configuration *)




(** X5. Which configuration error [_init_printer] raises.  An ID that is
    missing or the empty string gives "... must be set", whatever the other
    one is; when both are non-empty and one of them is not a hexadecimal
    literal, the error is "... must be valid hexadecimal strings".  In both
    cases the state is unchanged. *)
Theorem init_error_by_case rt w :
  let v := environ w !! "PRINTER_VENDOR_ID" in
  let p := environ w !! "PRINTER_PRODUCT_ID" in
  (v = None \/ v = Some EmptyString \/ p = None \/ p = Some EmptyString ->
   _init_printer rt w = (Raise ids_must_be_set, w)) /\
  (forall sv sp,
     v = Some sv -> p = Some sp ->
     sv <> EmptyString -> sp <> EmptyString ->
     Py.int_literal 16 sv = None \/ Py.int_literal 16 sp = None ->
     _init_printer rt w = (Raise ids_must_be_hex, w)).
Proof.
  intros v p. subst v p. split.
  - intros H.
    assert (F : falsy (environ w !! "PRINTER_VENDOR_ID")
                || falsy (environ w !! "PRINTER_PRODUCT_ID") = true).
    { destruct H as [-> | [-> | [-> | ->]]]; cbn;
        try reflexivity; apply orb_true_r. }
    unfold _init_printer, bind, environ_get. cbv beta iota. now rewrite F.
  - intros sv sp Lv Lp Nv Np H.
    assert (Tv : Py.truthy sv = true) by (destruct sv; [congruence | reflexivity]).
    assert (Tp : Py.truthy sp = true) by (destruct sp; [congruence | reflexivity]).
    unfold _init_printer, bind, environ_get, attempt, int_base16, lift,
      int_str, falsy, ret, raise.
    rewrite Lv, Lp, Tv, Tp. cbn [negb orb].
    destruct (Py.int_literal 16 sv) as [vid|].
    + destruct H as [H|H]; [discriminate|]. rewrite H. reflexivity.
    + reflexivity.
Qed.

Example empty_id_counts_as_missing :
  _init_printer quiet_runtime
    (fresh {[ "PRINTER_VENDOR_ID" := EmptyString;
              "PRINTER_PRODUCT_ID" := "not hex" ]})
  = (Raise ids_must_be_set,
     fresh {[ "PRINTER_VENDOR_ID" := EmptyString;
              "PRINTER_PRODUCT_ID" := "not hex" ]}).
Proof. vm_compute. reflexivity. Qed.

(** ** A failed construction is not remembered *)

(** X6. Starting with the singleton unset, [ensure_printer_ready] returns
    exactly when it has set the handle; when it raises, the singleton is
    still unset, so the next call runs [_init_printer] again (and succeeds
    if the device has become reachable). *)
Theorem ensure_sets_handle_or_raises rt w :
  _printer w = None ->
  let r := fst (ensure_printer_ready rt w) in
  let w' := snd (ensure_printer_ready rt w) in
  (r = Ok tt <-> exists u, _printer w' = Some u) /\
  (forall e, r = Raise e ->
     _printer w' = None /\
     ensure_printer_ready rt w'
     = match _init_printer rt w' with
       | (Ok u, w'') => (Ok tt, with_printer (Some u) w'')
       | (Raise e', w'') => (Raise e', w'')
       end).
Proof.
  intros Hp r w'. subst r w'. rewrite (ensure_unset rt w Hp).
  destruct (init_cases rt w)
    as [(e & E) | [(vid & pid & i & pr & e & E) | (vid & pid & i & pr & E)]];
    rewrite E; cbn [fst snd].
  - split.
    + split; [discriminate|]. intros [u Hu]. congruence.
    + intros e' _. split; [exact Hp|]. now rewrite (ensure_unset rt w Hp), E.
  - split.
    + split; [discriminate|]. intros [u Hu]. cbn in Hu. congruence.
    + intros e' _. split; [exact Hp|]. now apply ensure_unset.
  - split.
    + split; [eauto | reflexivity].
    + discriminate.
Qed.

Lemma ensure_sets_handle_or_raises_witness :
  fst (ensure_printer_ready (late_runtime not_found) (fresh sample_env))
  = Ok tt
  <-> exists u,
        _printer (snd (ensure_printer_ready (late_runtime not_found)
                         (fresh sample_env))) = Some u.
Proof.
  apply (ensure_sets_handle_or_raises (late_runtime not_found)
           (fresh sample_env)).
  reflexivity.
Defined.

Example second_attempt_succeeds :
  let w1 := snd (ensure_printer_ready (late_runtime not_found)
                   (fresh sample_env)) in
  fst (ensure_printer_ready (late_runtime not_found) (fresh sample_env))
  = Raise not_found /\
  _printer w1 = None /\
  fst (ensure_printer_ready (late_runtime not_found) w1) = Ok tt /\
  _printer (snd (ensure_printer_ready (late_runtime not_found) w1))
  = Some (mkUsb 1046 20497 0 None).
Proof. vm_compute. auto. Qed.

(** ** Where the exceptions of [print_task] come from *)

(** The full shape of a run of [send_all]: a run of calls that returned,
    then either the end of the list or one call that raised. *)
Lemma send_all_shape rt cs : forall w u,
  _printer w = Some u ->
  exists oks,
    Forall (fun ev => ev_raised ev = None) oks /\
    ((send_all rt cs w = (Ok tt, with_events oks w) /\ map ev_call oks = cs) \/
     (exists c e rest,
        cs = map ev_call oks ++ c :: rest /\
        send_all rt cs w = (Raise e, with_events (oks ++ [Ev c (Some e)]) w))).
Proof.
  induction cs as [|c cs IH]; intros w u Hu.
  - exists []. split; [constructor|]. left.
    cbn. now rewrite with_events_nil.
  - rewrite (send_all_cons rt c cs w u Hu).
    destruct (driver rt (trace w) c) as [e|].
    + exists []. split; [constructor|]. right. exists c, e, cs. auto.
    + destruct (IH (with_events [Ev c None] w) u Hu)
        as (oks & Hn & [[Hs Hm] | (c' & e & rest & Hc & Hs)]).
      * exists (Ev c None :: oks). split; [now constructor|]. left.
        rewrite Hs, with_events_app. cbn. now rewrite Hm.
      * exists (Ev c None :: oks). split; [now constructor|]. right.
        exists c', e, rest. rewrite Hs, with_events_app. cbn. now rewrite Hc.
Qed.

Lemma in_expected_is_device_call x t d c u :
  In x (expected_calls t d c u) -> is_device_call x = true.
Proof.
  intros H. pose proof (expected_are_device_calls t d c u) as Hall.
  rewrite List.Forall_forall in Hall. now apply Hall.
Qed.

(** X7. [print_task] raises nothing of its own and wraps nothing.  When it
    raises [e], either the singleton was unset and [e] is what
    [_init_printer] raised, or [e] was raised by a method call on the
    handle, which is then the last call in the trace.  With the handle in
    place only the second case remains, so a configuration error cannot
    come out of a print once initialization has succeeded. *)
Theorem print_task_failure_source rt t d c u w e :
  fst (print_task rt t d c u w) = Raise e ->
  (_printer w = None /\ fst (_init_printer rt w) = Raise e) \/
  (exists evs x,
     is_device_call x = true /\
     trace (snd (print_task rt t d c u w)) = trace w ++ evs ++ [Ev x (Some e)]).
Proof.
  intros H. destruct (_printer w) as [p|] eqn:Hp.
  - right. rewrite (print_task_set rt t d c u w p Hp) in *.
    destruct (send_all_shape rt (expected_calls t d c u)
                (with_entry (TaskArgs t d c u) w) p Hp)
      as (oks & _ & [[Hs _] | (x & e' & rest & Hc & Hs)]);
      rewrite Hs in *; cbn [fst snd] in *; [discriminate|].
    injection H as <-. exists oks, x. split; [|reflexivity].
    apply (in_expected_is_device_call x t d c u).
    rewrite Hc. apply in_or_app. right. now left.
  - rewrite (print_task_unset rt t d c u w Hp), init_frame in *.
    destruct (_init_printer rt w) as [[p|e'] w1] eqn:E; cbn [fst snd] in *.
    + right.
      destruct (init_cases rt w)
        as [(e0 & E0) | [(vid & pid & i & pr & e0 & E0)
                        | (vid & pid & i & pr & E0)]];
        rewrite E0 in E; try discriminate.
      injection E as <- <-.
      set (w2 := with_printer _ _) in *.
      destruct (send_all_shape rt (expected_calls t d c u) w2
                  (mkUsb vid pid i pr) eq_refl)
        as (oks & _ & [[Hs _] | (x & e' & rest & Hc & Hs)]);
        rewrite Hs in *; cbn [fst snd] in *; [discriminate|].
      injection H as <-.
      exists (Ev (UsbNew vid pid i pr) None :: oks), x. split.
      * apply (in_expected_is_device_call x t d c u).
        rewrite Hc. apply in_or_app. right. now left.
      * subst w2. cbn. now rewrite <- app_assoc.
    + left. injection H as <-. auto.
Qed.

Lemma print_task_failure_source_witness :
  (_printer (fresh sample_env) = None /\
   fst (_init_printer (failing_runtime not_found) (fresh sample_env))
   = Raise not_found) \/
  (exists evs x,
     is_device_call x = true /\
     trace (snd (print_task (failing_runtime not_found) "Buy milk" "Two litres"
                   sample_created sample_due (fresh sample_env)))
     = trace (fresh sample_env) ++ evs ++ [Ev x (Some not_found)]).
Proof.
  apply (print_task_failure_source (failing_runtime not_found) "Buy milk"
           "Two litres" sample_created sample_due (fresh sample_env) not_found).
  vm_compute. reflexivity.
Defined.

(** ** The paper is cut only after the whole task was sent *)

Lemma cut_is_last (l : list call) x rest t d c u :
  expected_calls t d c u = l ++ x :: rest ->
  In DevCut (l ++ [x]) ->
  x = DevCut /\ rest = [].
Proof.
  unfold expected_calls. intros H Hin.
  do 7 (destruct l as [|? l]; simplify_eq/=;
        [first [ split; reflexivity | intuition discriminate ] |]).
  destruct l; discriminate.
Qed.

Lemma send_all_cut rt t d c u w p :
  _printer w = Some p ->
  exists evs,
    snd (send_all rt (expected_calls t d c u) w) = with_events evs w /\
    (In DevCut (map ev_call evs) ->
     map ev_call evs = expected_calls t d c u /\
     Forall (fun ev => ev_call ev = DevCut \/ ev_raised ev = None) evs).
Proof.
  intros Hp.
  destruct (send_all_shape rt (expected_calls t d c u) w p Hp)
    as (oks & Hn & [[Hs Hm] | (x & e & rest & Hc & Hs)]); rewrite Hs.
  - exists oks. split; [reflexivity|]. intros _. split; [exact Hm|].
    eapply Forall_impl; [exact Hn|]. cbn. auto.
  - exists (oks ++ [Ev x (Some e)]). split; [reflexivity|].
    rewrite map_app. cbn [map ev_call]. intros Hin.
    destruct (cut_is_last _ _ _ _ _ _ _ Hc Hin) as [-> ->].
    split; [now rewrite Hc|].
    apply Forall_app. split.
    + eapply Forall_impl; [exact Hn|]. cbn. auto.
    + constructor; [|constructor]. now left.
Qed.

(** X8. [cut] is called only after everything else was sent: if the cut is
    among the driver calls of one [print_task], then the method calls of
    that run are the complete sequence, and every call before the cut
    returned without raising.  So when the constructor, a [set] or a
    [textln] raises, the paper is not cut. *)
Theorem cut_only_after_all_lines rt t d c u w evs :
  trace (snd (print_task rt t d c u w)) = trace w ++ evs ->
  In DevCut (map ev_call evs) ->
  device_calls evs = expected_calls t d c u /\
  Forall (fun ev => ev_call ev = DevCut \/ ev_raised ev = None) evs.
Proof.
  intros Htr Hin. destruct (_printer w) as [p|] eqn:Hp.
  - rewrite (print_task_set rt t d c u w p Hp) in Htr.
    destruct (send_all_cut rt t d c u (with_entry (TaskArgs t d c u) w) p Hp)
      as (evs' & Hs & Hcut).
    rewrite Hs in Htr. cbn in Htr. apply app_inv_head in Htr. subst evs'.
    destruct (Hcut Hin) as [Hm Hall]. split; [|exact Hall].
    unfold device_calls. rewrite Hm.
    apply filter_all, expected_are_device_calls.
  - rewrite (print_task_unset rt t d c u w Hp) in Htr.
    destruct (init_cases rt (with_entry (TaskArgs t d c u) w))
      as [(e & E) | [(vid & pid & i & pr & e & E) | (vid & pid & i & pr & E)]];
      rewrite E in Htr.
    + cbn in Htr. rewrite <- (app_nil_r (trace w)) in Htr at 1.
      apply app_inv_head in Htr. subst evs. destruct Hin.
    + cbn in Htr. apply app_inv_head in Htr. subst evs.
      cbn in Hin. intuition discriminate.
    + set (w2 := with_printer _ _) in *.
      destruct (send_all_cut rt t d c u w2 (mkUsb vid pid i pr) eq_refl)
        as (evs' & Hs & Hcut).
      rewrite Hs in Htr. subst w2. cbn in Htr. rewrite <- app_assoc in Htr.
      apply app_inv_head in Htr. subst evs.
      cbn in Hin. destruct Hin as [Hin|Hin]; [discriminate|].
      destruct (Hcut Hin) as [Hm Hall]. split.
      * unfold device_calls. cbn. rewrite Hm.
        apply filter_all, expected_are_device_calls.
      * constructor; [now right | exact Hall].
Qed.

Lemma cut_only_after_all_lines_witness :
  device_calls
    [Ev (DevSet [("align", "left"); ("text_type", "b")]) None;
     Ev (DevTextln ("Buy milk" +:+ Py.nl)) None;
     Ev (DevSet [("text_type", "normal")]) None;
     Ev (DevTextln ("Two litres" +:+ Py.nl)) None;
     Ev (DevTextln ("Created: 2024-01-05 09:30" +:+ Py.nl)) None;
     Ev (DevTextln ("Due:     2024-01-05 17:00" +:+ Py.nl)) None;
     Ev DevCut None]
  = expected_calls "Buy milk" "Two litres" sample_created sample_due.
Proof.
  apply (cut_only_after_all_lines quiet_runtime "Buy milk" "Two litres"
           sample_created sample_due
           (mkWorld sample_env (Some (mkUsb 1046 20497 0 None)) [] [])).
  - vm_compute. reflexivity.
  - vm_compute. auto 10.
Defined.

Example no_cut_when_a_line_fails :
  In DevCut
    (map ev_call
       (trace (snd (print_task (failing_runtime not_found) "Buy milk"
                      "Two litres" sample_created sample_due
                      (fresh sample_env)))))
  -> False.
Proof. vm_compute. intuition discriminate. Qed.

(** ** The environment is read at construction only *)

Lemma send_all_environ rt cs : forall w p env',
  _printer w = Some p ->
  send_all rt cs (with_environ env' w)
  = (fst (send_all rt cs w), with_environ env' (snd (send_all rt cs w))).
Proof.
  induction cs as [|x cs IH]; intros w p env' Hp; [reflexivity|].
  rewrite (send_all_cons rt x cs (with_environ env' w) p Hp).
  rewrite (send_all_cons rt x cs w p Hp).
  cbn [trace with_environ].
  destruct (driver rt (trace w) x) as [e|]; [reflexivity|].
  exact (IH (with_events [Ev x None] w) p env' Hp).
Qed.

(** X9. Once the handle is set, the environment no longer matters: with
    any other environment (the printer variables changed or removed)
    [print_task] makes the same calls with the same result, and
    [ensure_printer_ready] still does nothing. *)
Theorem environment_is_read_at_construction_only rt t d c u w p env' :
  _printer w = Some p ->
  print_task rt t d c u (with_environ env' w)
  = (fst (print_task rt t d c u w),
     with_environ env' (snd (print_task rt t d c u w))) /\
  ensure_printer_ready rt (with_environ env' w) = (Ok tt, with_environ env' w).
Proof.
  intros Hp. split.
  - rewrite (print_task_set rt t d c u (with_environ env' w) p Hp).
    rewrite (print_task_set rt t d c u w p Hp).
    exact (send_all_environ rt _ (with_entry (TaskArgs t d c u) w) p env' Hp).
  - exact (ensure_set rt (with_environ env' w) p Hp).
Qed.

Lemma environment_is_read_at_construction_only_witness :
  let w := snd (startup quiet_runtime (fresh sample_env)) in
  print_task quiet_runtime "Buy milk" "Two litres" sample_created sample_due
    (with_environ ∅ w)
  = (fst (print_task quiet_runtime "Buy milk" "Two litres" sample_created
            sample_due w),
     with_environ ∅
       (snd (print_task quiet_runtime "Buy milk" "Two litres" sample_created
               sample_due w))).
Proof.
  intros w. subst w.
  apply (environment_is_read_at_construction_only quiet_runtime "Buy milk"
           "Two litres" sample_created sample_due
           (snd (startup quiet_runtime (fresh sample_env)))
           (mkUsb 1046 20497 0 None) ∅).
  reflexivity.
Defined.

(** ** The date lines are exact to the minute *)







(** ** The two endpoints drive the printer alike *)

(** X11. For a task that the JSON endpoint accepts and whose date-time
    texts both parsers read alike, [POST /api/print] and [POST /print]
    have the same effect on the printer and the process state, and they
    answer with the same status: 200 when the print returned, 500 when it
    raised. *)
Theorem both_endpoints_print_alike rt b c u w :
  blank (raw_title b) = false ->
  blank (raw_description b) = false ->
  parse_datetime rt (raw_created_on b) = Some c ->
  parse_datetime rt (raw_due_by b) = Some u ->
  fromisoformat rt (raw_created_on b) = Some c ->
  fromisoformat rt (raw_due_by b) = Some u ->
  let api := post_api_print rt b w in
  let form := print_from_form rt (raw_title b) (raw_description b)
                (raw_created_on b) (raw_due_by b) w in
  snd api = snd form /\
  exists ra rf,
    fst api = Ok ra /\ fst form = Ok rf /\ status_of ra = status_of rf /\
    (status_of ra = 200 \/ status_of ra = 500).
Proof.
  intros Ht Hd Pc Pu Fc Fu api form. subst api form.
  unfold post_api_print. rewrite (validate_ok rt b c u Ht Hd Pc Pu).
  rewrite (print_from_form_parsed rt _ _ _ _ c u w Fc Fu).
  destruct (print_task rt (raw_title b) (raw_description b) c u w)
    as [[[]|e] w'] eqn:E.
  - rewrite (print_via_api_ok rt _ w w') by exact E.
    split; [reflexivity|]. do 2 eexists.
    split; [reflexivity|]. split; [reflexivity|]. cbn. auto.
  - rewrite (print_via_api_raise rt _ w w' e) by exact E.
    split; [reflexivity|]. do 2 eexists.
    split; [reflexivity|]. split; [reflexivity|]. cbn. auto.
Qed.

Lemma both_endpoints_print_alike_witness :
  snd (post_api_print quiet_runtime sample_body (fresh sample_env))
  = snd (print_from_form quiet_runtime "Buy milk" "Two litres"
           "2024-01-05T09:30" "2024-01-05T17:00" (fresh sample_env)).
Proof.
  apply (both_endpoints_print_alike quiet_runtime sample_body sample_created
           sample_due (fresh sample_env)).
  - reflexivity.
  - reflexivity.
  - reflexivity.
  - reflexivity.
  - reflexivity.
  - reflexivity.
Defined.
